(** * qgis_plugin_tools: a shallow embedding of the tools and widgets modules

    Python values are modelled as follows: a [str] is its list of Unicode
    code points, [bytes] is its list of octets (both as [Z]); [None] is
    [option]; a Python exception is a constructor of [exn] and fallible code
    returns a [result].  Objects of the host application (network replies,
    expressions, layers, widgets) are records holding what the code reads
    from them. *)

From Stdlib Require Import String Ascii List ZArith Bool Lia.
Import ListNotations.
Open Scope Z_scope.

(* ------------------------------------------------------------------ *)
(** ** Python values *)

Definition str := list Z.
Definition bytes := list Z.

(** A Rocq ASCII literal as a Python [str] (or [bytes]) literal. *)
Fixpoint lit (s : string) : list Z :=
  match s with
  | EmptyString => []
  | String c s' => Z.of_nat (nat_of_ascii c) :: lit s'
  end.

Fixpoint list_eqb (a b : list Z) : bool :=
  match a, b with
  | [], [] => true
  | x :: a', y :: b' => (x =? y) && list_eqb a' b'
  | _, _ => false
  end.

(** [prefixb p s]: [s.startswith(p)]. *)
Fixpoint prefixb (p s : list Z) : bool :=
  match p, s with
  | [], _ => true
  | x :: p', y :: s' => (x =? y) && prefixb p' s'
  | _ :: _, [] => false
  end.

(** The first occurrence of [sep] in [s]: the text before it and the text
    after it. *)
Fixpoint first_occ (sep s : list Z) : option (list Z * list Z) :=
  if prefixb sep s then Some ([], skipn (length sep) s)
  else match s with
       | [] => None
       | c :: s' =>
           match first_occ sep s' with
           | Some (b, a) => Some (c :: b, a)
           | None => None
           end
       end.

Fixpoint split_fuel (fuel : nat) (sep s : list Z) : list (list Z) :=
  match fuel with
  | O => [s]
  | S f =>
      match first_occ sep s with
      | Some (b, a) => b :: split_fuel f sep a
      | None => [s]
      end
  end.

(** [s.split(sep)] for a non-empty separator: every occurrence, taken left
    to right without overlap, cuts the string.  Each cut consumes at least
    one character, so [length s + 1] rounds suffice. *)
Definition py_split (sep s : list Z) : list (list Z) :=
  split_fuel (S (length s)) sep s.

Fixpoint py_join (sep : list Z) (parts : list (list Z)) : list Z :=
  match parts with
  | [] => []
  | [p] => p
  | p :: ps => p ++ sep ++ py_join sep ps
  end.

(** [s.replace(old, new)], for a non-empty [old]. *)
Definition py_replace (old new s : list Z) : list Z :=
  py_join new (py_split old s).

(** Modelled from the spec: the exception classes of tools/exceptions.py
    and [bar_msg] of tools/custom_logging.py (not under src/).  Failures are
    exceptions wrapping host-reported error strings: a
    [QgsPluginNetworkException] or [QgsPluginExpressionException] keeps the
    string handed to [bar_msg] for the message bar.  The other constructors
    are Python's built-in exceptions. *)
Inductive exn : Type :=
  | IndexError
  | ValueError
  | UnicodeError          (* UnicodeEncodeError / UnicodeDecodeError / LookupError of a codec *)
  | NetworkException (message : option str) (error : option Z) (bar_msg : str)
      (* QgsPluginNetworkException(message, error, bar_msg=bar_msg(...)) *)
  | ExpressionException (bar_msg : str)
      (* QgsPluginExpressionException(bar_msg=bar_msg(...)) *).

Inductive result (A : Type) : Type :=
  | Ok (a : A)
  | Raise (e : exn).
Arguments Ok {A} a.
Arguments Raise {A} e.

Definition bind {A B} (r : result A) (k : A -> result B) : result B :=
  match r with
  | Ok a => k a
  | Raise e => Raise e
  end.

Notation "x <- r ;; k" := (bind r (fun x => k))
  (at level 61, r at next level, right associativity).

Definition of_option {A} (o : option A) (e : exn) : result A :=
  match o with
  | Some a => Ok a
  | None => Raise e
  end.

(** [xs[i]] for a non-negative index. *)
Definition py_index {A} (xs : list A) (i : nat) : result A :=
  of_option (nth_error xs i) IndexError.

(** [s[1:-1]]. *)
Definition slice_1_m1 (s : list Z) : list Z :=
  firstn (length s - 2) (skipn 1 s).

Definition QUOTE : Z := 34.       (* double quote *)
Definition APOSTROPHE : Z := 39.  (* single quote *)
Definition CRLF : list Z := [13; 10].

(** *** UTF-8, the codec of the module constant [ENCODING = "utf-8"] *)

Definition is_cont (b : Z) : bool := (128 <=? b) && (b <? 192).

(** [b.decode("utf-8")] with the strict error handler: [None] is a
    [UnicodeDecodeError].  Overlong forms, surrogates and code points above
    U+10FFFF are refused, as by CPython. *)
Fixpoint decode_utf8 (bs : bytes) : option str :=
  match bs with
  | [] => Some []
  | b0 :: r0 =>
      if b0 <? 128 then option_map (cons b0) (decode_utf8 r0)
      else if (194 <=? b0) && (b0 <=? 223) then
        match r0 with
        | b1 :: r1 =>
            if is_cont b1
            then option_map (cons (Z.lor (Z.shiftl (Z.land b0 31) 6) (Z.land b1 63)))
                   (decode_utf8 r1)
            else None
        | [] => None
        end
      else if (224 <=? b0) && (b0 <=? 239) then
        match r0 with
        | b1 :: b2 :: r2 =>
            if is_cont b1 && is_cont b2
               && (negb (b0 =? 224) || (160 <=? b1))
               && (negb (b0 =? 237) || (b1 <=? 159))
            then option_map
                   (cons (Z.lor (Z.lor (Z.shiftl (Z.land b0 15) 12)
                                       (Z.shiftl (Z.land b1 63) 6))
                                (Z.land b2 63)))
                   (decode_utf8 r2)
            else None
        | _ => None
        end
      else if (240 <=? b0) && (b0 <=? 244) then
        match r0 with
        | b1 :: b2 :: b3 :: r3 =>
            if is_cont b1 && is_cont b2 && is_cont b3
               && (negb (b0 =? 240) || (144 <=? b1))
               && (negb (b0 =? 244) || (b1 <=? 143))
            then option_map
                   (cons (Z.lor (Z.lor (Z.shiftl (Z.land b0 7) 18)
                                       (Z.shiftl (Z.land b1 63) 12))
                                (Z.lor (Z.shiftl (Z.land b2 63) 6) (Z.land b3 63))))
                   (decode_utf8 r3)
            else None
        | _ => None
        end
      else None
  end.

(** [s.encode("utf-8")]: [None] for a lone surrogate or a value that is no
    code point. *)
Fixpoint encode_utf8 (s : str) : option bytes :=
  match s with
  | [] => Some []
  | c :: s' =>
      let enc :=
        if (c <? 0) then None
        else if c <? 128 then Some [c]
        else if c <? 2048 then
          Some [Z.lor 192 (Z.shiftr c 6); Z.lor 128 (Z.land c 63)]
        else if (55296 <=? c) && (c <=? 57343) then None
        else if c <? 65536 then
          Some [Z.lor 224 (Z.shiftr c 12); Z.lor 128 (Z.land (Z.shiftr c 6) 63);
                Z.lor 128 (Z.land c 63)]
        else if c <? 1114112 then
          Some [Z.lor 240 (Z.shiftr c 18); Z.lor 128 (Z.land (Z.shiftr c 12) 63);
                Z.lor 128 (Z.land (Z.shiftr c 6) 63); Z.lor 128 (Z.land c 63)]
        else None in
      match enc, encode_utf8 s' with
      | Some b, Some bs => Some (b ++ bs)
      | _, _ => None
      end
  end.

(* ------------------------------------------------------------------ *)
(** ** tools/network.py *)

Module Network.

(** [Literal["get", "post"]]: the annotated type of [method]; the final
    [raise ValueError] of [request_raw] is unreachable for it. *)
Inductive method : Type := Get | Post.

Record QNetworkRequest : Type := {
  rq_url : str;
  rq_raw_headers : list (bytes * bytes)
}.

(** [req.setRawHeader(name, value)]: replaces a header of the same name. *)
Definition setRawHeader (name value : bytes) (req : QNetworkRequest)
  : QNetworkRequest :=
  {| rq_url := rq_url req;
     rq_raw_headers :=
       filter (fun h => negb (list_eqb (fst h) name)) (rq_raw_headers req)
       ++ [(name, value)] |}.

(** What is handed to [QgsBlockingNetworkRequest]: the authentication
    configuration set with [setAuthCfg] (if any), the method and the body. *)
Inductive blocking_call : Type :=
  | CallGet (authcfg : option str) (req : QNetworkRequest)
  | CallPost (authcfg : option str) (req : QNetworkRequest) (body : bytes).

Record QgsNetworkReplyContent : Type := {
  reply_error : Z;                          (* reply.error() *)
  reply_errorString : str;                  (* reply.errorString() *)
  reply_content : bytes;                    (* bytes(reply.content()) *)
  reply_rawHeaderPairs : list (bytes * bytes)
}.

(** [QNetworkReply.NetworkError.NoError]. *)
Definition NoError : Z := 0.

(** [reply.hasRawHeader(name)] and [reply.rawHeader(name)] together. *)
Definition rawHeader (name : bytes) (r : QgsNetworkReplyContent) : option bytes :=
  match find (fun h => list_eqb (fst h) name) (reply_rawHeaderPairs r) with
  | Some (_, v) => Some v
  | None => None
  end.

Record FileInfo : Type := {
  file_name : str;
  file_content : bytes;
  content_type : str
}.

Record FileField : Type := {
  field_name : str;
  file_info : FileInfo
}.

(** [requests.get(url, stream=True, timeout=timeout)]: a
    [requests.exceptions.RequestException], or a response with its status,
    whether [raise_for_status()] passes, its text, the header
    [r.headers.get("Content-Disposition")] and the body [r.raw]. *)
Inductive requests_outcome : Type :=
  | RequestException (msg : str)
  | Response (status_code : Z) (status_ok : bool) (text : str)
      (content_disposition : option str) (raw : bytes).

(** The host and the libraries [request_raw] and [download_to_file] call. *)
Record NetEnv : Type := {
  (* QgsBlockingNetworkRequest: the reply() after get/post of a call *)
  host_reply : blocking_call -> QgsNetworkReplyContent;
  (* QSettings().value("/qgis/networkAndProxy/userAgent", "Mozilla/5.0") *)
  settings_user_agent : str;
  (* str(Qgis.QGIS_VERSION_INT) *)
  qgis_version : str;
  (* tools.resources.plugin_name() *)
  plugin_name : str;
  (* urllib.parse.urlencode and json.dumps *)
  urlencode : list (str * str) -> str;
  json_dumps : list (str * str) -> str;
  (* uuid4().hex *)
  uuid4_hex : str;
  (* bytes(s, encoding) and b.decode(encoding); None is the codec's error *)
  codec_encode : str -> str -> option bytes;
  codec_decode : str -> bytes -> option str;
  (* the optional third-party package requests *)
  REQUESTS_IS_AVAILABLE : bool;
  requests_get : str -> requests_outcome;
  (* Path(output_dir, out_name) *)
  path_join : str -> str -> str
}.

Section Request.
Variable E : NetEnv.

(** [bytes(s, encoding)]. *)
Definition to_bytes (encoding s : str) : result bytes :=
  of_option (codec_encode E encoding s) UnicodeError.

Definition ENCODING : str := lit "utf-8".

(** The loop of [request_raw] that builds the multipart body, appending to
    [byte_data]. *)
Fixpoint multipart_body (encoding : str) (byte_boundary : bytes)
    (files : list FileField) (byte_data : bytes) : result bytes :=
  match files with
  | [] => Ok byte_data
  | file_field :: rest =>
      let fi := file_info file_field in
      let content_disposition_form_data :=
        lit "Content-Disposition: form-data;"
        ++ lit " name=" ++ [QUOTE] ++ field_name file_field ++ [QUOTE] ++ lit ";"
        ++ lit " filename=" ++ [QUOTE] ++ file_name fi ++ [QUOTE] ++ CRLF in
      cd <- to_bytes encoding content_disposition_form_data ;;
      ct <- to_bytes encoding (lit "Content-Type: " ++ content_type fi ++ CRLF ++ CRLF) ;;
      multipart_body encoding byte_boundary rest
        (byte_data ++ (byte_boundary ++ cd ++ ct ++ file_content fi))
  end.

Definition truthy {A} (o : option (list A)) : bool :=
  match o with
  | Some (_ :: _) => true
  | _ => false
  end.

(** The [elif method == "post"] branch: body and headers of the post. *)
Definition post_call (encoding : str) (auth : option str) (req : QNetworkRequest)
    (data : option (list (str * str))) (files : option (list FileField))
  : result blocking_call :=
  match data with
  | Some ((_ :: _) as d) =>
      byte_data <- to_bytes encoding (json_dumps E d) ;;
      ct <- to_bytes encoding (lit "application/json; charset=" ++ encoding) ;;
      Ok (CallPost auth (setRawHeader (lit "Content-Type") ct req) byte_data)
  | _ =>
      match files with
      | Some ((_ :: _) as fs) =>
          let boundary := uuid4_hex E in
          byte_boundary <- to_bytes encoding (CRLF ++ lit "--" ++ boundary ++ CRLF) ;;
          body <- multipart_body encoding byte_boundary fs [] ;;
          closing <- to_bytes encoding (CRLF ++ lit "--" ++ boundary ++ lit "--" ++ CRLF) ;;
          ct <- to_bytes encoding (lit "multipart/form-data; boundary=" ++ boundary) ;;
          Ok (CallPost auth (setRawHeader (lit "Content-Type") ct req) (body ++ closing))
      | _ => Ok (CallPost auth req [])
      end
  end.

(** The default file name read from a [Content-Disposition] header. *)
Definition default_name_of (encoding : str) (header : bytes) : result str :=
  h <- of_option (codec_decode E encoding header) UnicodeError ;;
  default_name <- py_index (py_split (lit "filename=") h) 1 ;;
  c0 <- py_index default_name 0 ;;
  Ok (if (c0 =? QUOTE) || (c0 =? APOSTROPHE)
      then slice_1_m1 default_name else default_name).

(** The part of [request_raw] before [request_blocking.reply()]: the request
    and the call made on [QgsBlockingNetworkRequest]. *)
Definition request_call (url : str) (m : method) (encoding authcfg_id : str)
    (params data : option (list (str * str))) (files : option (list FileField))
  : result blocking_call :=
  let url := match params with
             | Some ((_ :: _) as p) => url ++ lit "?" ++ urlencode E p
             | _ => url
             end in
  let ua0 := settings_user_agent E in
  let ua1 := ua0 ++ (match ua0 with [] => [] | _ => lit " " end) in
  let user_agent := ua1 ++ lit "QGIS/" ++ qgis_version E ++ lit " " ++ plugin_name E in
  ua <- to_bytes encoding user_agent ;;
  let req := setRawHeader (lit "User-Agent") ua {| rq_url := url; rq_raw_headers := [] |} in
  let auth := match authcfg_id with [] => None | _ => Some authcfg_id end in
  match m with
  | Get => Ok (CallGet auth req)
  | Post => post_call encoding auth req data files
  end.

(** The part of [request_raw] after [reply = request_blocking.reply()]. *)
Definition handle_reply (encoding : str) (reply : QgsNetworkReplyContent)
  : result (bytes * str) :=
  if negb (reply_error reply =? NoError) then
    message <- match reply_content reply with
               | [] => Ok None
               | c => msg <- of_option (decode_utf8 c) UnicodeError ;; Ok (Some msg)
               end ;;
    Raise (NetworkException message (Some (reply_error reply)) (reply_errorString reply))
  else
    default_name <- match rawHeader (lit "Content-Disposition") reply with
                    | Some header => default_name_of encoding header
                    | None => Ok []
                    end ;;
    Ok (reply_content reply, default_name).

Definition request_raw (url : str) (m : method) (encoding authcfg_id : str)
    (params data : option (list (str * str))) (files : option (list FileField))
  : result (bytes * str) :=
  call <- request_call url m encoding authcfg_id params data files ;;
  handle_reply encoding (host_reply E call).

Definition fetch_raw (url encoding authcfg_id : str) (params : option (list (str * str)))
  : result (bytes * str) :=
  request_raw url Get encoding authcfg_id params None None.

Definition post_raw (url encoding authcfg_id : str) (data : option (list (str * str)))
    (files : option (list FileField)) : result (bytes * str) :=
  request_raw url Post encoding authcfg_id None data files.

(** [content.decode(ENCODING)]. *)
Definition decode_ENCODING (content : bytes) : result str :=
  of_option (decode_utf8 content) UnicodeError.

Definition fetch (url encoding authcfg_id : str) (params : option (list (str * str)))
  : result str :=
  reply <- fetch_raw url encoding authcfg_id params ;;
  decode_ENCODING (fst reply).

Definition post (url encoding authcfg_id : str) (data : option (list (str * str)))
    (files : option (list FileField)) : result str :=
  reply <- post_raw url encoding authcfg_id data files ;;
  decode_ENCODING (fst reply).

(** Decimal digits of an integer, as [str(n)] and [format] write them. *)
Fixpoint dec_fuel (fuel : nat) (n : Z) (acc : str) : str :=
  match fuel with
  | O => acc
  | S f =>
      let acc' := (48 + n mod 10) :: acc in
      if n <? 10 then acc' else dec_fuel f (n / 10) acc'
  end.

Definition z_to_dec (n : Z) : str :=
  if n <? 0 then 45 :: dec_fuel 64 (- n) [] else dec_fuel 64 n [].

Definition take_line (s : str) : str :=
  let fix go s := match s with
                  | [] => []
                  | c :: s' => if c =? 10 then [] else c :: go s'
                  end in go s.

Fixpoint findall_fuel (fuel : nat) (s : str) : list str :=
  match fuel with
  | O => []
  | S f =>
      match s with
      | [] => []
      | _ :: s' =>
          if prefixb (lit "filename=") s then
            match take_line (skipn 9 s) with
            | [] => findall_fuel f s'
            | cap => cap :: findall_fuel f (skipn (9 + length cap) s)
            end
          else findall_fuel f s'
      end
  end.

(** [re.findall("filename=(.+)", s)]: the group of every match, scanning
    left to right; [.] is any character but a newline and is greedy. *)
Definition findall_filename (s : str) : list str :=
  findall_fuel (S (length s)) s.

(** The local function [get_output] of [download_to_file]. *)
Definition get_output (url output_dir : str) (output_name : option str)
    (default_filename : str) : str :=
  let out_name :=
    match output_name with
    | None =>
        if negb (list_eqb default_filename [])
        then default_filename
        else
          let out_name := py_replace (lit "https://") [] (py_replace (lit "http://") [] url) in
          let tail := last (py_split (lit "/") out_name) [] in
          if Nat.ltb 2 (length tail) then tail else out_name
    | Some n => n
    end in
  path_join E output_dir out_name.

(** [download_to_file]: on success, the returned path and the bytes written
    to it by [open(output, "wb")] (file-system errors are not modelled). *)
Definition download_to_file (url output_dir : str) (output_name : option str)
    (use_requests_if_available : bool) (encoding : str) : result (str * bytes) :=
  if use_requests_if_available && REQUESTS_IS_AVAILABLE E then
    match requests_get E url with
    | RequestException msg =>
        Raise (NetworkException (Some (lit "Request failed")) None msg)
    | Response status_code status_ok text cd raw =>
        if negb status_ok then
          Raise (NetworkException
                   (Some (lit "Request failed with status code " ++ z_to_dec status_code))
                   None text)
        else
          let default_filenames :=
            findall_filename (match cd with Some h => h | None => [] end) in
          let default_filename :=
            match default_filenames with d :: _ => d | [] => [] end in
          let output := get_output url output_dir output_name default_filename in
          Ok (output, raw)
    end
  else
    r <- fetch_raw url encoding [] None ;;
    let output := get_output url output_dir output_name (snd r) in
    Ok (output, fst r).

End Request.

(** A concrete host, used to run the code on given replies: every codec
    name is served by UTF-8, and paths are joined with a slash. *)
Definition sample_env (r : QgsNetworkReplyContent) (resp : requests_outcome)
  : NetEnv :=
  {| host_reply := fun _ => r;
     settings_user_agent := lit "Mozilla/5.0";
     qgis_version := lit "33400";
     plugin_name := lit "plugin";
     urlencode := fun kv => py_join (lit "&") (map (fun p => fst p ++ lit "=" ++ snd p) kv);
     json_dumps := fun _ => lit "{}";
     uuid4_hex := lit "0123456789abcdef";
     codec_encode := fun _ s => encode_utf8 s;
     codec_decode := fun _ b => decode_utf8 b;
     REQUESTS_IS_AVAILABLE := true;
     requests_get := fun _ => resp;
     path_join := fun d n => d ++ lit "/" ++ n |}.

(** A successful reply with body [data] and the given [Content-Disposition]
    header. *)
Definition cd_reply (header : str) : QgsNetworkReplyContent :=
  {| reply_error := NoError;
     reply_errorString := [];
     reply_content := lit "data";
     reply_rawHeaderPairs := [(lit "Content-Disposition", header)] |}.

(** The same response from [requests]. *)
Definition cd_response (header : str) : requests_outcome :=
  Response 200 true [] (Some header) (lit "data").

Definition sample_cd_env (header : str) : NetEnv :=
  sample_env (cd_reply header) (cd_response header).

Definition SAMPLE_URL : str := lit "http://example.com/files/report".

(** [Content-Disposition: attachment; filename="a.csv"]. *)
Definition QUOTED_HEADER : str :=
  lit "attachment; filename=" ++ [QUOTE] ++ lit "a.csv" ++ [QUOTE].

(** The call [request_raw] makes for a plain get of [SAMPLE_URL]. *)
Definition SAMPLE_CALL : blocking_call :=
  Eval vm_compute in
    match request_call (sample_cd_env []) SAMPLE_URL Get ENCODING [] None None None with
    | Ok c => c
    | Raise _ => CallGet None {| rq_url := []; rq_raw_headers := [] |}
    end.




Definition PLAIN_REPLY : QgsNetworkReplyContent :=
  {| reply_error := NoError; reply_errorString := [];
     reply_content := lit "data"; reply_rawHeaderPairs := [] |}.

End Network.

(* ------------------------------------------------------------------ *)
(** ** tools/logger_processing.py *)

Module LoggerProcessing.

(** The calls made on [LOGGER] when [use_logger] is set. *)
Inductive level : Type := INFO | WARNING | EXCEPTION.

Record LoggerProcessingFeedBack : Type := {
  _last : option str;
  use_logger : bool;
  last_progress_text : option str;
  last_push_info : option str;
  last_command_info : option str;
  last_debug_info : option str;
  last_console_info : option str;
  last_report_error : option str;
  logged : list (level * str)
}.

Definition init (use_logger : bool) : LoggerProcessingFeedBack :=
  {| _last := None; use_logger := use_logger;
     last_progress_text := None; last_push_info := None;
     last_command_info := None; last_debug_info := None;
     last_console_info := None; last_report_error := None;
     logged := [] |}.

(** The property [last]. *)
Definition last (s : LoggerProcessingFeedBack) : option str := _last s.

Definition log_if (s : LoggerProcessingFeedBack) (l : level) (text : str)
  : list (level * str) :=
  if use_logger s then logged s ++ [(l, text)] else logged s.

Definition setProgressText (s : LoggerProcessingFeedBack) (text : str)
  : LoggerProcessingFeedBack :=
  {| _last := Some text; use_logger := use_logger s;
     last_progress_text := Some text; last_push_info := last_push_info s;
     last_command_info := last_command_info s; last_debug_info := last_debug_info s;
     last_console_info := last_console_info s; last_report_error := last_report_error s;
     logged := log_if s INFO text |}.

Definition pushInfo (s : LoggerProcessingFeedBack) (text : str)
  : LoggerProcessingFeedBack :=
  {| _last := Some text; use_logger := use_logger s;
     last_progress_text := last_progress_text s; last_push_info := Some text;
     last_command_info := last_command_info s; last_debug_info := last_debug_info s;
     last_console_info := last_console_info s; last_report_error := last_report_error s;
     logged := log_if s INFO text |}.

Definition pushCommandInfo (s : LoggerProcessingFeedBack) (text : str)
  : LoggerProcessingFeedBack :=
  {| _last := Some text; use_logger := use_logger s;
     last_progress_text := last_progress_text s; last_push_info := last_push_info s;
     last_command_info := Some text; last_debug_info := last_debug_info s;
     last_console_info := last_console_info s; last_report_error := last_report_error s;
     logged := log_if s INFO text |}.

Definition pushDebugInfo (s : LoggerProcessingFeedBack) (text : str)
  : LoggerProcessingFeedBack :=
  {| _last := Some text; use_logger := use_logger s;
     last_progress_text := last_progress_text s; last_push_info := last_push_info s;
     last_command_info := last_command_info s; last_debug_info := Some text;
     last_console_info := last_console_info s; last_report_error := last_report_error s;
     logged := log_if s WARNING text |}.

Definition pushConsoleInfo (s : LoggerProcessingFeedBack) (text : str)
  : LoggerProcessingFeedBack :=
  {| _last := Some text; use_logger := use_logger s;
     last_progress_text := last_progress_text s; last_push_info := last_push_info s;
     last_command_info := last_command_info s; last_debug_info := last_debug_info s;
     last_console_info := Some text; last_report_error := last_report_error s;
     logged := log_if s INFO text |}.

(** [fatalError] is accepted and ignored. *)
Definition reportError (s : LoggerProcessingFeedBack) (text : str) (fatalError : bool)
  : LoggerProcessingFeedBack :=
  {| _last := Some text; use_logger := use_logger s;
     last_progress_text := last_progress_text s; last_push_info := last_push_info s;
     last_command_info := last_command_info s; last_debug_info := last_debug_info s;
     last_console_info := last_console_info s; last_report_error := Some text;
     logged := log_if s EXCEPTION text |}.

(** The six categories and the method that reports to each. *)
Inductive category : Type :=
  | ProgressText | PushInfo | CommandInfo | DebugInfo | ConsoleInfo | ReportError.

Definition call (c : category) : LoggerProcessingFeedBack -> str -> LoggerProcessingFeedBack :=
  match c with
  | ProgressText => setProgressText
  | PushInfo => pushInfo
  | CommandInfo => pushCommandInfo
  | DebugInfo => pushDebugInfo
  | ConsoleInfo => pushConsoleInfo
  | ReportError => fun s t => reportError s t false
  end.

Definition last_of (c : category) : LoggerProcessingFeedBack -> option str :=
  match c with
  | ProgressText => last_progress_text
  | PushInfo => last_push_info
  | CommandInfo => last_command_info
  | DebugInfo => last_debug_info
  | ConsoleInfo => last_console_info
  | ReportError => last_report_error
  end.

Definition category_eqb (a b : category) : bool :=
  match a, b with
  | ProgressText, ProgressText | PushInfo, PushInfo | CommandInfo, CommandInfo
  | DebugInfo, DebugInfo | ConsoleInfo, ConsoleInfo | ReportError, ReportError => true
  | _, _ => false
  end.

End LoggerProcessing.

(* ------------------------------------------------------------------ *)
(** ** tools/layers.py *)

Module QgsWkbTypes.

(** The flat (2D) geometry types of [QgsWkbTypes.Type]. *)
Inductive FlatType : Type :=
  | Unknown | Point | LineString | Polygon | Triangle
  | MultiPoint | MultiLineString | MultiPolygon | GeometryCollection
  | CircularString | CompoundCurve | CurvePolygon | MultiCurve | MultiSurface
  | PolyhedralSurface | TIN | NoGeometry.

Definition FlatType_eq_dec (a b : FlatType) : {a = b} + {a <> b}.
Proof. decide equality. Defined.

Definition FlatType_eqb (a b : FlatType) : bool :=
  if FlatType_eq_dec a b then true else false.

(** A [QgsWkbTypes.Type]: a flat type with its Z, M and 25D variants. *)
Record Type_ : Type := {
  flat : FlatType;
  hasZ : bool;
  hasM : bool;
  is25D : bool
}.

(** [QgsWkbTypes.flatType]: drops the Z, M and 25D dimensions. *)
Definition flatType (t : Type_) : FlatType := flat t.

End QgsWkbTypes.

Module LayerType.
Import QgsWkbTypes.

Definition POINT_TYPES : list FlatType := [Point; MultiPoint].
Definition LINE_TYPES : list FlatType := [LineString; MultiLineString].
Definition POLYGON_TYPES : list FlatType := [Polygon; MultiPolygon; CurvePolygon].

Definition mem (x : FlatType) (xs : list FlatType) : bool :=
  existsb (FlatType_eqb x) xs.

Inductive LayerType : Type := LPoint | LLine | LPolygon | LUnknown.

(** The members in definition order, which is the iteration order of the
    enum. *)
Definition members : list LayerType := [LPoint; LLine; LPolygon; LUnknown].

Definition wkb_types (l : LayerType) : list FlatType :=
  match l with
  | LPoint => POINT_TYPES
  | LLine => LINE_TYPES
  | LPolygon => POLYGON_TYPES
  | LUnknown => []
  end.

(** [next((l for l in LayerType if flatType(t) in l.wkb_types), Unknown)]. *)
Definition from_wkb_type (wkb_type : Type_) : LayerType :=
  match find (fun l => mem (flatType wkb_type) (wkb_types l)) members with
  | Some l => l
  | None => LUnknown
  end.

End LayerType.

Module Expressions.

Section Evaluate.
(** Host objects: context scopes, features, layers and expression values. *)
Context {Scope Feature Layer Value : Type}.
(** [QgsExpressionContextUtils.layerScope] *)
Variable layerScope : Layer -> Scope.
(** Python truth value of a layer and of a feature ([if layer:], [if feature:]). *)
Variable layer_truthy : Layer -> bool.
Variable feature_truthy : Feature -> bool.

Record QgsExpressionContext : Type := {
  ctx_scopes : list Scope;
  ctx_feature : option Feature
}.

(** A [QgsExpression]: its parser error (if any) and [evaluate], which
    returns the value and sets the evaluation error ([hasEvalError] and
    [evalErrorString] afterwards). *)
Record QgsExpression : Type := {
  hasParserError : bool;
  parserErrorString : str;
  evaluate : QgsExpressionContext -> Value * option str
}.

(** [evaluate_expressions]: the caller's [context_scopes] list after the call
    (it is appended to in place) and the outcome. *)
Definition evaluate_expressions (exp : QgsExpression) (feature : option Feature)
    (layer : option Layer) (context_scopes : option (list Scope))
  : option (list Scope) * result Value :=
  let scopes := match context_scopes with Some l => l | None => [] end in
  let scopes := match layer with
                | Some l => if layer_truthy l then scopes ++ [layerScope l] else scopes
                | None => scopes
                end in
  let context := {| ctx_scopes := scopes;
                    ctx_feature := match feature with
                                   | Some f => if feature_truthy f then Some f else None
                                   | None => None
                                   end |} in
  let '(value, eval_error) := evaluate exp context in
  let outcome :=
    if hasParserError exp then Raise (ExpressionException (parserErrorString exp))
    else match eval_error with
         | Some evalErrorString => Raise (ExpressionException evalErrorString)
         | None => Ok value
         end in
  (match context_scopes with Some _ => Some scopes | None => None end, outcome).

End Evaluate.

End Expressions.

(* ------------------------------------------------------------------ *)
(** ** tools/fields.py *)

Module Fields.

(** [QVariant.Type]; [OtherType n] is any type id not named in the module. *)
Inductive QVariantType : Type :=
  | Bool | Int | UInt | LongLong | ULongLong | Double | String
  | Date | DateTime | Time | ByteArray | OtherType (n : Z).

Definition QVariantType_eq_dec (a b : QVariantType) : {a = b} + {a <> b}.
Proof. decide equality; apply Z.eq_dec. Defined.

Definition QVariantType_eqb (a b : QVariantType) : bool :=
  if QVariantType_eq_dec a b then true else false.

(** The widgets [widget_for_field] creates, with the properties it sets. *)
Inductive QWidget : Type :=
  | QCheckBox
  | QgsSpinBox (maximum : Z)
  | QgsDoubleSpinBox (maximum : Z)
  | QComboBox (editable : bool)
  | QDateEdit
  | QgsDateTimeEdit.

(** Qt's default maximum of a spin box. *)
Definition default_spin_maximum : Z := 99.

Definition setMaximum (w : QWidget) (m : Z) : QWidget :=
  match w with
  | QgsSpinBox _ => QgsSpinBox m
  | QgsDoubleSpinBox _ => QgsDoubleSpinBox m
  | w => w
  end.

Definition setEditable (w : QWidget) (b : bool) : QWidget :=
  match w with
  | QComboBox _ => QComboBox b
  | w => w
  end.

Definition widget_for_field (field_type : QVariantType) : QWidget :=
  let q_combo_box := setEditable (QComboBox false) true in
  if QVariantType_eqb field_type Bool then QCheckBox
  else if existsb (QVariantType_eqb field_type) [Int; UInt; LongLong; ULongLong] then
    setMaximum (QgsSpinBox default_spin_maximum) 2147483647
  else if QVariantType_eqb field_type Double then
    setMaximum (QgsDoubleSpinBox default_spin_maximum) 2147483647
  else if QVariantType_eqb field_type String then q_combo_box
  else if QVariantType_eqb field_type Date then QDateEdit
  else if QVariantType_eqb field_type DateTime then QgsDateTimeEdit
  else if QVariantType_eqb field_type Time then QgsDateTimeEdit
  else if QVariantType_eqb field_type ByteArray then q_combo_box
  else q_combo_box.

End Fields.

(* ------------------------------------------------------------------ *)
(** ** tools/decorations.py *)

Module Decorations.

(** Positional arguments: [False], an integer, or any other object. *)
Inductive pyarg : Type :=
  | PyBool (b : bool)
  | PyInt (z : Z)
  | PyObject (id : Z).

(** [a == False] *)
Definition eq_False (a : pyarg) : bool :=
  match a with
  | PyBool b => negb b
  | PyInt z => z =? 0
  | PyObject _ => false
  end.

(** [args[1:] != (False,)] *)
Definition tail_is_not_False (args : list pyarg) : bool :=
  match args with
  | [_; a] => negb (eq_False a)
  | _ => true
  end.

(** Modelled from the spec: the exception classes of tools/exceptions.py
    (not under src/).  A [QgsPluginException] carries the keyword arguments
    of its bar message ([e.bar_msg]); other exceptions derive from
    [Exception], and some (KeyboardInterrupt, SystemExit, GeneratorExit)
    derive from [BaseException] only. *)
Inductive py_exception : Type :=
  | QgsPluginException (bar_msg : list (str * str))
  | OtherException (name : str)
  | BaseOnlyException (name : str).

Inductive call_outcome : Type :=
  | Returns
  | Raises (e : py_exception).

(** Modelled from the spec: [MsgBar.exception] of tools/messages.py (not
    under src/), the host message-bar adapter; a call is recorded and
    displays the message, it does not raise.  [MsgBarPluginException e kw]
    is [MsgBar.exception(e, **kw)], [MsgBarUnhandled m e] is
    [MsgBar.exception(m, e)]. *)
Inductive msgbar_call : Type :=
  | MsgBarPluginException (e : py_exception) (kwargs : list (str * str))
  | MsgBarUnhandled (message : str) (e : py_exception).

(** The [wrapper] built by [log_if_fails fn], applied to [args]: what the
    call does (it returns [None] or raises) and the message-bar calls. *)
Definition log_if_fails (fn : list pyarg -> call_outcome) (args : list pyarg)
  : call_outcome * list msgbar_call :=
  let r := if tail_is_not_False args then fn args else fn (removelast args) in
  match r with
  | Returns => (Returns, [])
  | Raises (QgsPluginException bar_msg as e) =>
      (Returns, [MsgBarPluginException e bar_msg])
  | Raises (OtherException _ as e) =>
      (Returns, [MsgBarUnhandled (lit "Unhandled exception occurred") e])
  | Raises (BaseOnlyException _ as e) => (Raises e, [])
  end.

End Decorations.

(* ------------------------------------------------------------------ *)
(** ** widgets/list_fields_selection.py *)

Module ListFieldsSelection.

Record QgsField : Type := {
  name : str;
  alias : str
}.

Record QgsVectorLayer : Type := {
  fields : list QgsField;
  iconForField : Z -> Z
}.

(** [layer.fields().indexFromName(name)], -1 when absent. *)
Fixpoint index_from (i : Z) (fs : list QgsField) (n : str) : Z :=
  match fs with
  | [] => -1
  | f :: fs' => if list_eqb (name f) n then i else index_from (i + 1) fs' n
  end.

Definition indexFromName (l : QgsVectorLayer) (n : str) : Z :=
  index_from 0 (fields l) n.

Record QListWidgetItem : Type := {
  item_text : str;
  item_data : str;           (* data(Qt.ItemDataRole.UserRole) *)
  item_icon : option Z;
  item_selected : bool
}.

Record ListFieldsSelection : Type := {
  layer : option QgsVectorLayer;
  items : list QListWidgetItem
}.

Definition cell_for (l : QgsVectorLayer) (field : QgsField) : QListWidgetItem :=
  let a := alias field in
  let index := indexFromName l (name field) in
  {| item_text := match a with
                  | [] => name field
                  | _ => name field ++ lit " (" ++ a ++ lit ")"
                  end;
     item_data := name field;
     item_icon := if 0 <=? index then Some (iconForField l index) else None;
     item_selected := false |}.

Definition set_layer (w : ListFieldsSelection) (l : QgsVectorLayer)
  : ListFieldsSelection :=
  {| layer := Some l; items := map (cell_for l) (fields l) |}.

Definition setSelected (it : QListWidgetItem) (b : bool) : QListWidgetItem :=
  {| item_text := item_text it; item_data := item_data it;
     item_icon := item_icon it; item_selected := b |}.

(** [set_selection(fields)]; membership [x in fields] of the container is
    the predicate [contains]. *)
Definition set_selection (w : ListFieldsSelection) (contains : str -> bool)
  : ListFieldsSelection :=
  {| layer := layer w;
     items := map (fun it => setSelected it (contains (item_data it))) (items w) |}.

Definition selection (w : ListFieldsSelection) : list str :=
  map item_data (filter item_selected (items w)).

End ListFieldsSelection.

(* ------------------------------------------------------------------ *)
(** ** tools/layers.py: [get_field_index] *)

Module LayerFields.
Import ListFieldsSelection.

Record VectorLayer : Type := {
  vl_name : str;                 (* layer.name() *)
  vl_fields : list QgsField      (* layer.fields() *)
}.

(** The outcome of [get_field_index]: the index, or the [KeyError] raised,
    with the field name and layer name handed to its message. *)
Inductive field_index_result : Type :=
  | FieldIndex (i : Z)
  | KeyError (field_name layer_name : str).

Definition get_field_index (layer : VectorLayer) (field_name : str)
  : field_index_result :=
  let field_index := index_from 0 (vl_fields layer) field_name in
  if field_index =? -1 then KeyError field_name (vl_name layer)
  else FieldIndex field_index.

End LayerFields.

(* ------------------------------------------------------------------ *)
(** ** tools/fields.py: [provider_fields] *)

Module ProviderFields.
Import ListFieldsSelection.

(** [QgsFields.FieldOrigin]. *)
Inductive FieldOrigin : Type :=
  | OriginUnknown | OriginProvider | OriginJoin | OriginEdit | OriginExpression.

Definition is_provider (o : FieldOrigin) : bool :=
  match o with OriginProvider => true | _ => false end.

(** A [QgsFields]: its fields with their origins. *)
Definition QgsFields := list (QgsField * FieldOrigin).

(** [QgsFields.append(field)]: the origin defaults to [OriginProvider]; a
    field whose name is already present is refused. *)
Definition append (flds : QgsFields) (f : QgsField) : QgsFields :=
  if existsb (fun p => list_eqb (name (fst p)) (name f)) flds then flds
  else flds ++ [(f, OriginProvider)].

Definition provider_fields (fields : QgsFields) : QgsFields :=
  fold_left (fun flds p => if is_provider (snd p) then append flds (fst p) else flds)
    fields [].

End ProviderFields.

(* ------------------------------------------------------------------ *)
(** ** tools/algorithm_processing.py *)

Module AlgorithmProcessing.

(** [QgsProcessingAlgorithm.Flag.FlagHideFromModeler = 1 << 2]. *)
Definition FlagHideFromModeler : Z := Z.shiftl 1 2.

(** [BaseProcessingAlgorithm.flags()], given [super().flags()]. *)
Definition flags (super_flags : Z) : Z := Z.lor super_flags FlagHideFromModeler.

End AlgorithmProcessing.

(* ------------------------------------------------------------------ *)
(** ** widgets/selectable_combobox.py *)

Module SelectableComboBox.
Import ListFieldsSelection.

(** A [QStandardItem] of the combo's model; [si_data] is [item.data()]
    (the field name [set_layer] stores). *)
Record QStandardItem : Type := {
  si_text : str;
  si_data : str;
  si_icon : option Z;
  si_enabled : bool;
  si_checkable : bool;
  si_selectable : bool;
  si_checked : bool            (* checkState() == Qt.CheckState.Checked *)
}.

(** The combo box: the rows of its model (all found by
    [findItems("*", MatchWildcard)]) and the text of its line edit. *)
Record CheckableComboBox : Type := {
  model : list QStandardItem;
  edit_text : str
}.

Definition selected_of (items : list QStandardItem) : list str :=
  map si_data (filter si_checked items).

Definition selected_items (c : CheckableComboBox) : list str :=
  selected_of (model c).

(** [", ".join(self.selected_items())] *)
Definition label_of (items : list QStandardItem) : str :=
  py_join (lit ", ") (selected_of items).

(** [text_changed(text)]: when the text differs from the label, the line
    edit is set to the label (the [textChanged] this emits calls
    [text_changed] again with the label, which then does nothing). *)
Definition text_changed (c : CheckableComboBox) (text : option str)
  : CheckableComboBox :=
  match text with
  | Some t => if list_eqb t (label_of (model c)) then c
              else {| model := model c; edit_text := label_of (model c) |}
  | None => {| model := model c; edit_text := label_of (model c) |}
  end.

Definition with_checked (it : QStandardItem) (b : bool) : QStandardItem :=
  {| si_text := si_text it; si_data := si_data it; si_icon := si_icon it;
     si_enabled := si_enabled it; si_checkable := si_checkable it;
     si_selectable := si_selectable it; si_checked := b |}.

(** The loops of [select_all_clicked] and [set_selected_items]: item by
    item, [setCheckState(choose item)].  A check state that changes emits
    [itemChanged], whose slot [combo_changed] calls [text_changed(None)] on
    the model as it is at that moment; an unchanged one emits nothing.
    [pre] holds the items already visited. *)
Fixpoint set_checks (choose : QStandardItem -> bool) (pre rest : list QStandardItem)
    (text : str) : CheckableComboBox :=
  match rest with
  | [] => {| model := pre; edit_text := text |}
  | it :: rest' =>
      if Bool.eqb (si_checked it) (choose it)
      then set_checks choose (pre ++ [it]) rest' text
      else
        let it' := with_checked it (choose it) in
        let c := text_changed {| model := pre ++ [it'] ++ rest'; edit_text := text |} None in
        set_checks choose (pre ++ [it']) rest' (edit_text c)
  end.

Definition select_all_clicked (c : CheckableComboBox) : CheckableComboBox :=
  set_checks (fun _ => true) [] (model c) (edit_text c).

(** [set_selected_items(items)]; membership [x in items] is [contains]. *)
Definition set_selected_items (c : CheckableComboBox) (contains : str -> bool)
  : CheckableComboBox :=
  set_checks (fun it => contains (si_data it)) [] (model c) (edit_text c).

(** [append_row(item)]: [setCheckable(True)] gives an item without a check
    state the state Unchecked; [appendRow] emits no [itemChanged]. *)
Definition append_row (c : CheckableComboBox) (item : QStandardItem)
  : CheckableComboBox :=
  {| model := model c ++
       [{| si_text := si_text item; si_data := si_data item; si_icon := si_icon item;
           si_enabled := true; si_checkable := true; si_selectable := false;
           si_checked := si_checked item |}];
     edit_text := edit_text c |}.

(** A map layer given to [CheckableFieldComboBox.set_layer]. *)
Record QgsMapLayer : Type := {
  is_vector_layer : bool;        (* layer.type() == QgsMapLayerType.VectorLayer *)
  ml_fields : list QgsField;
  ml_iconForField : Z -> Z
}.

(** The rows [set_layer] builds for a vector layer. *)
Fixpoint rows_from (i : Z) (l : QgsMapLayer) (fs : list QgsField) : list QStandardItem :=
  match fs with
  | [] => []
  | field :: fs' =>
      {| si_text := match alias field with
                    | [] => name field
                    | a => name field ++ lit " (" ++ a ++ lit ")"
                    end;
         si_data := name field; si_icon := Some (ml_iconForField l i);
         si_enabled := true; si_checkable := true; si_selectable := false;
         si_checked := false |} :: rows_from (i + 1) l fs'
  end.

(** [CheckableFieldComboBox.set_layer]: the stored layer and the rows of
    the model afterwards ([model.clear()] first).  The line-edit text the
    host combo box shows after the reset is not modelled. *)
Definition set_layer (current : option QgsMapLayer) (layer : option QgsMapLayer)
  : option QgsMapLayer * list QStandardItem :=
  match layer with
  | None => (current, [])
  | Some l =>
      if negb (is_vector_layer l) then (current, [])
      else (Some l, rows_from 0 l (ml_fields l))
  end.

End SelectableComboBox.

(* ------------------------------------------------------------------ *)
(** ** tools/logger_processing.py: what [LOGGER] receives *)

Module LoggerLevels.
Import LoggerProcessing.

(** The [LOGGER] method each category calls: [warning] for debug info,
    [exception] for errors, [info] otherwise. *)
Definition level_of (c : category) : level :=
  match c with
  | DebugInfo => WARNING
  | ReportError => EXCEPTION
  | _ => INFO
  end.

End LoggerLevels.

(* ------------------------------------------------------------------ *)
(** * Properties *)

(** ** Checks of the Python primitives on small inputs *)

Example decode_utf8_e_acute : decode_utf8 [195; 169] = Some [233].
Proof. reflexivity. Qed.

Example decode_utf8_overlong : decode_utf8 [192; 128] = None.
Proof. reflexivity. Qed.

Example encode_utf8_euro : encode_utf8 [8364] = Some [226; 130; 172].
Proof. reflexivity. Qed.

Example decode_utf8_euro : decode_utf8 [226; 130; 172] = Some [8364].
Proof. reflexivity. Qed.

Example py_split_example :
  py_split (lit "/") (lit "a//b") = [lit "a"; []; lit "b"].
Proof. reflexivity. Qed.

Example py_split_at_end :
  py_split (lit "ab") (lit "xab") = [lit "x"; []].
Proof. reflexivity. Qed.

Example py_replace_example :
  py_replace (lit "http://") [] (lit "http://x/http://y") = lit "x/y".
Proof. reflexivity. Qed.

Example slice_examples :
  slice_1_m1 (lit "'ab'") = lit "ab" /\ slice_1_m1 [QUOTE] = [] /\ slice_1_m1 [] = [].
Proof. repeat split; reflexivity. Qed.

Example request_raw_quoted_name :
  Network.request_raw (Network.sample_cd_env (lit "attachment; filename=" ++ [QUOTE] ++ lit "a.csv" ++ [QUOTE]))
    (lit "http://example.com/f") Network.Get Network.ENCODING [] None None None
  = Ok (lit "data", lit "a.csv").
Proof. vm_compute. reflexivity. Qed.

Example findall_example :
  Network.findall_filename (lit "attachment; filename=a.csv") = [lit "a.csv"].
Proof. vm_compute. reflexivity. Qed.

Lemma list_eqb_eq : forall a b, list_eqb a b = true <-> a = b.
Proof.
  induction a as [|x a IH]; destruct b as [|y b]; simpl;
    try (split; congruence).
  rewrite andb_true_iff, Z.eqb_eq, IH. split.
  - intros [-> ->]; reflexivity.
  - intros H; injection H; auto.
Qed.

(** ** tools/logger_processing.py *)

Module LoggerProcessingFacts.
Import LoggerProcessing.

(** C2: each of the six reporting methods sets [last] and its own [last_*]
    attribute to the text, and leaves the other five [last_*] attributes as
    they were. *)
Theorem report_sets_last_and_own_category :
  forall (s : LoggerProcessingFeedBack) (c : category) (t : str),
    last (call c s t) = Some t /\
    forall c' : category,
      last_of c' (call c s t) = if category_eqb c' c then Some t else last_of c' s.
Proof.
  intros s c t; split.
  - destruct c; reflexivity.
  - intros c'; destruct c, c'; reflexivity.
Qed.

End LoggerProcessingFacts.

(** ** tools/layers.py *)

Module LayerTypeFacts.
Import QgsWkbTypes LayerType.

(** C4: [from_wkb_type] answers Point exactly for the flat types Point and
    MultiPoint, Line exactly for LineString and MultiLineString, Polygon
    exactly for Polygon, MultiPolygon and CurvePolygon, and Unknown for the
    others; the three sets of flat types are pairwise disjoint. *)
Theorem from_wkb_type_categories :
  forall t : Type_,
    (from_wkb_type t = LPoint <-> In (flatType t) [Point; MultiPoint]) /\
    (from_wkb_type t = LLine <-> In (flatType t) [LineString; MultiLineString]) /\
    (from_wkb_type t = LPolygon <->
       In (flatType t) [Polygon; MultiPolygon; CurvePolygon]) /\
    (from_wkb_type t = LUnknown <->
       ~ In (flatType t) [Point; MultiPoint; LineString; MultiLineString;
                          Polygon; MultiPolygon; CurvePolygon]) /\
    (forall x, mem x POINT_TYPES && mem x LINE_TYPES = false) /\
    (forall x, mem x POINT_TYPES && mem x POLYGON_TYPES = false) /\
    (forall x, mem x LINE_TYPES && mem x POLYGON_TYPES = false).
Proof.
  intros [f z m d]; unfold from_wkb_type, flatType; simpl.
  repeat split;
    try (intros x; destruct x; reflexivity);
    destruct f; simpl; intuition congruence.
Qed.

End LayerTypeFacts.

Module ExpressionFacts.
Import Expressions.

(** C3: [evaluate_expressions] raises a [QgsPluginExpressionException]
    wrapping the parser error string when the expression has a parser
    error, otherwise one wrapping the evaluation error string when the
    evaluation reports one, and otherwise returns the value of the
    expression in the assembled context: the caller's scopes, then the
    layer's scope when a layer is given, and the feature when given. *)
Theorem evaluate_expressions_outcome :
  forall (Scope Feature Layer Value : Type) (layerScope : Layer -> Scope)
         (layer_truthy : Layer -> bool) (feature_truthy : Feature -> bool)
         (exp : QgsExpression (Scope:=Scope) (Feature:=Feature) (Value:=Value))
         (feature : option Feature) (layer : option Layer)
         (context_scopes : option (list Scope)),
    let context :=
      {| ctx_scopes :=
           match context_scopes with Some l => l | None => [] end
           ++ match layer with
              | Some l => if layer_truthy l then [layerScope l] else []
              | None => []
              end;
         ctx_feature :=
           match feature with
           | Some f => if feature_truthy f then Some f else None
           | None => None
           end |} in
    snd (evaluate_expressions layerScope layer_truthy feature_truthy
           exp feature layer context_scopes)
    = if hasParserError exp then Raise (ExpressionException (parserErrorString exp))
      else match snd (evaluate exp context) with
           | Some evalErrorString => Raise (ExpressionException evalErrorString)
           | None => Ok (fst (evaluate exp context))
           end.
Proof.
  intros Scope Feature Layer Value layerScope layer_truthy feature_truthy
         exp feature layer context_scopes context.
  unfold evaluate_expressions, context.
  assert (Hs : forall l : list Scope,
             match layer with
             | Some ly => if layer_truthy ly then l ++ [layerScope ly] else l
             | None => l
             end
             = l ++ match layer with
                    | Some ly => if layer_truthy ly then [layerScope ly] else []
                    | None => []
                    end).
  { intros l; destruct layer as [ly|]; [destruct (layer_truthy ly)|];
      rewrite ?app_nil_r; reflexivity. }
  rewrite Hs.
  destruct (evaluate exp _) as [value eval_error]; simpl.
  reflexivity.
Qed.

End ExpressionFacts.

Module FieldsFacts.
Import Fields.

(** C6: [widget_for_field] gives a check box for Bool, a spin box with
    maximum 2147483647 for the four integer types, a double spin box with
    maximum 2147483647 for Double, a date edit for Date, a date-time edit for
    DateTime and Time, and an editable combo box for String, ByteArray and
    every other type. *)
Theorem widget_for_field_mapping :
  widget_for_field Bool = QCheckBox /\
  widget_for_field Int = QgsSpinBox 2147483647 /\
  widget_for_field UInt = QgsSpinBox 2147483647 /\
  widget_for_field LongLong = QgsSpinBox 2147483647 /\
  widget_for_field ULongLong = QgsSpinBox 2147483647 /\
  widget_for_field Double = QgsDoubleSpinBox 2147483647 /\
  widget_for_field Date = QDateEdit /\
  widget_for_field DateTime = QgsDateTimeEdit /\
  widget_for_field Time = QgsDateTimeEdit /\
  widget_for_field String = QComboBox true /\
  widget_for_field ByteArray = QComboBox true /\
  (forall n : Z, widget_for_field (OtherType n) = QComboBox true).
Proof.
  repeat split; intros; reflexivity.
Qed.

End FieldsFacts.

Module ListFieldsSelectionFacts.
Import ListFieldsSelection.



End ListFieldsSelectionFacts.

(** ** tools/network.py *)

Module NetworkFacts.
Import Network.












(** C8: [fetch] and [post] decode the content returned by [fetch_raw] and
    [post_raw] with the module constant [ENCODING] (UTF-8): the [encoding]
    argument plays no part in that decoding. *)
Theorem fetch_post_decode_with_ENCODING :
  forall (E : NetEnv) (url encoding authcfg_id : str)
         (params data : option (list (str * str))) (files : option (list FileField)),
    fetch E url encoding authcfg_id params
    = (r <- fetch_raw E url encoding authcfg_id params ;;
       of_option (decode_utf8 (fst r)) UnicodeError) /\
    post E url encoding authcfg_id data files
    = (r <- post_raw E url encoding authcfg_id data files ;;
       of_option (decode_utf8 (fst r)) UnicodeError).
Proof. intros; split; reflexivity. Qed.

(** C1 (failing input): a successful reply whose [Content-Disposition]
    header has no [filename=] makes [request_raw] raise [IndexError] at
    [split("filename=")[1]] instead of returning the content. *)
Theorem request_raw_header_without_filename :
  request_raw (sample_cd_env (lit "attachment")) SAMPLE_URL Get ENCODING [] None None None
  = Raise IndexError.
Proof. vm_compute. reflexivity. Qed.




(** C5 (failing input): for [Content-Disposition: attachment;
    filename="a.csv"] and no [output_name], the [requests] branch writes to
    [out/"a.csv"] (quotes kept) while the [fetch_raw] branch writes to
    [out/a.csv]. *)
Theorem download_to_file_branches_differ :
  download_to_file (sample_cd_env QUOTED_HEADER) SAMPLE_URL (lit "out") None true ENCODING
  = Ok (lit "out/" ++ [QUOTE] ++ lit "a.csv" ++ [QUOTE], lit "data") /\
  download_to_file (sample_cd_env QUOTED_HEADER) SAMPLE_URL (lit "out") None false ENCODING
  = Ok (lit "out/a.csv", lit "data").
Proof. vm_compute. split; reflexivity. Qed.

End NetworkFacts.

(** ** tools/decorations.py *)

Module DecorationsFacts.
Import Decorations.

(** C7 (counterexample): a function raising [SystemExit], which derives
    from [BaseException] but not from [Exception], is not caught by the
    wrapper: the exception propagates and nothing reaches the message bar. *)
Theorem log_if_fails_lets_SystemExit_through :
  log_if_fails (fun _ => Raises (BaseOnlyException (lit "SystemExit"))) []
  = (Raises (BaseOnlyException (lit "SystemExit")), []).
Proof. reflexivity. Qed.

(** C7 (amended): whatever [fn] does when called (with a trailing [False]
    second argument dropped), the wrapper returns [None] when [fn] returns
    or raises an [Exception]: a [QgsPluginException] goes to the message bar
    with its bar message, any other [Exception] with the generic
    unhandled-exception message.  Only an exception deriving from
    [BaseException] alone propagates, with no message-bar call. *)
Theorem log_if_fails_routes_exceptions :
  forall (fn : list pyarg -> call_outcome) (args : list pyarg),
    let called := if tail_is_not_False args then args else removelast args in
    match fn called with
    | Returns => log_if_fails fn args = (Returns, [])
    | Raises (QgsPluginException bar_msg as e) =>
        log_if_fails fn args = (Returns, [MsgBarPluginException e bar_msg])
    | Raises (OtherException _ as e) =>
        log_if_fails fn args
        = (Returns, [MsgBarUnhandled (lit "Unhandled exception occurred") e])
    | Raises (BaseOnlyException _ as e) => log_if_fails fn args = (Raises e, [])
    end.
Proof.
  intros fn args called; unfold log_if_fails.
  assert (Hc : (if tail_is_not_False args then fn args else fn (removelast args))
               = fn called) by (unfold called; destruct (tail_is_not_False args); reflexivity).
  rewrite Hc.
  destruct (fn called) as [|[bm|n|n]]; reflexivity.
Qed.

End DecorationsFacts.

(* ------------------------------------------------------------------ *)
(** * Further properties of the code *)

(** ** tools/network.py *)

Module NetworkMoreFacts.
Import Network.



(** A successful reply without a [Content-Disposition] header gives its
    content and the empty default name. *)
Theorem request_raw_no_content_disposition :
  forall (E : NetEnv) (url : str) (m : method) (encoding authcfg_id : str)
         (params data : option (list (str * str))) (files : option (list FileField))
         (call : blocking_call),
    request_call E url m encoding authcfg_id params data files = Ok call ->
    reply_error (host_reply E call) = NoError ->
    rawHeader (lit "Content-Disposition") (host_reply E call) = None ->
    request_raw E url m encoding authcfg_id params data files
    = Ok (reply_content (host_reply E call), []).
Proof.
  intros E url m encoding authcfg_id params data files call Hcall Herr Hhdr.
  unfold request_raw; rewrite Hcall; cbn [bind].
  unfold handle_reply; rewrite Herr, Hhdr; reflexivity.
Qed.

Lemma request_raw_no_content_disposition_witness :
  request_raw (sample_env PLAIN_REPLY (cd_response [])) SAMPLE_URL Get ENCODING [] None None None
  = Ok (lit "data", []).
Proof.
  exact (request_raw_no_content_disposition (sample_env PLAIN_REPLY (cd_response []))
           SAMPLE_URL Get ENCODING [] None None None SAMPLE_CALL
           ltac:(vm_compute; reflexivity) ltac:(reflexivity) ltac:(reflexivity)).
Defined.



(** With an [output_name], a successful download is always written to
    [Path(output_dir, output_name)], whichever branch runs and whatever the
    headers say. *)
Theorem download_to_file_output_name :
  forall (E : NetEnv) (url output_dir n : str) (use_requests : bool) (encoding : str),
    match download_to_file E url output_dir (Some n) use_requests encoding with
    | Ok (p, _) => p = path_join E output_dir n
    | Raise _ => True
    end.
Proof.
  intros E url output_dir n use_requests encoding.
  unfold download_to_file.
  destruct (use_requests && REQUESTS_IS_AVAILABLE E).
  - destruct (requests_get E url) as [msg|code ok text cd raw]; [exact I|].
    destruct (negb ok); [exact I|reflexivity].
  - destruct (fetch_raw E url encoding [] None) as [[c d]|e]; simpl; [reflexivity|exact I].
Qed.

End NetworkMoreFacts.

(** ** tools/layers.py and widgets/list_fields_selection.py: field lookup *)

Module LayerFieldsFacts.
Import ListFieldsSelection LayerFields.

(** [index_from i fs n] is [i] plus the position of the first field named
    [n], or -1 when there is none. *)
Lemma index_from_spec :
  forall fs i n,
    0 <= i ->
    (index_from i fs n = -1 /\ forall f, In f fs -> name f <> n) \/
    (exists k f, index_from i fs n = i + Z.of_nat k /\ nth_error fs k = Some f /\
                 name f = n /\
                 forall j f', (j < k)%nat -> nth_error fs j = Some f' -> name f' <> n).
Proof.
  induction fs as [|g fs IH]; intros i n Hi; simpl.
  - left; split; [reflexivity | intros f []].
  - destruct (list_eqb (name g) n) eqn:Hg.
    + apply list_eqb_eq in Hg.
      right; exists O, g; repeat split; [lia | assumption | intros j f' Hj; lia].
    + assert (Hne : name g <> n) by (intros Heq; apply list_eqb_eq in Heq; congruence).
      destruct (IH (i + 1) n ltac:(lia)) as [[H1 H2] | (k & f & H1 & H2 & H3 & H4)].
      * left; split; [exact H1|].
        intros f [<- | Hf]; [exact Hne | exact (H2 f Hf)].
      * right; exists (S k), f; repeat split; [rewrite H1; lia | exact H2 | exact H3 |].
        intros [|j] f' Hj Hf'; simpl in Hf'.
        -- injection Hf' as <-; exact Hne.
        -- apply (H4 j f'); [lia | exact Hf'].
Qed.

(** [get_field_index] returns the position of the first field with the
    given name, and raises [KeyError] (naming the field and the layer)
    exactly when no field has that name. *)
Theorem get_field_index_spec :
  forall (layer : VectorLayer) (field_name : str),
    match get_field_index layer field_name with
    | FieldIndex i =>
        0 <= i /\
        exists f, nth_error (vl_fields layer) (Z.to_nat i) = Some f /\
                  name f = field_name /\
                  forall j f', (j < Z.to_nat i)%nat ->
                               nth_error (vl_fields layer) j = Some f' -> name f' <> field_name
    | KeyError fn ln =>
        fn = field_name /\ ln = vl_name layer /\
        forall f, In f (vl_fields layer) -> name f <> field_name
    end.
Proof.
  intros layer field_name; unfold get_field_index.
  destruct (index_from_spec (vl_fields layer) 0 field_name ltac:(lia))
    as [[H1 H2] | (k & f & H1 & H2 & H3 & H4)]; rewrite H1.
  - simpl; repeat split; assumption.
  - destruct (Z.eqb_spec (0 + Z.of_nat k) (-1)) as [Hk|_]; [lia|].
    split; [lia|].
    replace (Z.to_nat (0 + Z.of_nat k)) with k by lia.
    exists f; repeat split; assumption.
Qed.

(** Right after [set_layer], nothing is selected. *)
Theorem selection_after_set_layer :
  forall (w : ListFieldsSelection) (l : QgsVectorLayer),
    selection (set_layer w l) = [].
Proof.
  intros w l; unfold selection, set_layer; simpl.
  induction (fields l) as [|f fs IH]; simpl; [reflexivity | exact IH].
Qed.

(** [set_selection] forgets the previous selection: the last call alone
    decides the widget. *)
Theorem set_selection_last_wins :
  forall (w : ListFieldsSelection) (s1 s2 : str -> bool),
    set_selection (set_selection w s1) s2 = set_selection w s2.
Proof.
  intros w s1 s2; unfold set_selection; simpl; f_equal.
  rewrite map_map; apply map_ext; intros it; reflexivity.
Qed.

(** With field names unique (as [QgsFields] keeps them), [set_layer] gives
    field [i] the item [i]: text [name (alias)] or [name], the name as
    user-role data, the layer's icon for index [i], not selected. *)
Theorem set_layer_items :
  forall (w : ListFieldsSelection) (l : QgsVectorLayer),
    NoDup (map name (fields l)) ->
    forall (i : nat) (f : QgsField),
      nth_error (fields l) i = Some f ->
      nth_error (items (set_layer w l)) i
      = Some {| item_text := match alias f with
                             | [] => name f
                             | a => name f ++ lit " (" ++ a ++ lit ")"
                             end;
                item_data := name f;
                item_icon := Some (iconForField l (Z.of_nat i));
                item_selected := false |}.
Proof.
  intros w l Hnd i f Hf; simpl.
  rewrite nth_error_map, Hf; simpl; unfold cell_for, indexFromName.
  destruct (index_from_spec (fields l) 0 (name f) ltac:(lia))
    as [[H1 H2] | (k & g & H1 & H2 & H3 & H4)].
  - exfalso; apply (H2 f (nth_error_In _ _ Hf)); reflexivity.
  - assert (k = i).
    { apply (NoDup_nth_error (map name (fields l))); [exact Hnd | |].
      - apply nth_error_Some; rewrite nth_error_map, H2; discriminate.
      - rewrite !nth_error_map, H2, Hf; simpl; congruence. }
    subst k; rewrite H1; simpl.
    destruct (Z.leb_spec 0 (Z.of_nat i)) as [_|Hneg]; [|lia].
    destruct (alias f); reflexivity.
Qed.

Definition two_field_layer : QgsVectorLayer :=
  {| fields := [{| name := lit "id"; alias := [] |};
                {| name := lit "nm"; alias := lit "Name" |}];
     iconForField := fun i => 100 + i |}.

Lemma set_layer_items_witness :
  nth_error (items (set_layer {| layer := None; items := [] |} two_field_layer)) 1
  = Some {| item_text := lit "nm (Name)"; item_data := lit "nm";
            item_icon := Some 101; item_selected := false |}.
Proof.
  refine (set_layer_items {| layer := None; items := [] |} two_field_layer _ 1
            {| name := lit "nm"; alias := lit "Name" |} eq_refl).
  simpl; repeat constructor; simpl; intuition discriminate.
Defined.

End LayerFieldsFacts.

(** ** tools/fields.py: [provider_fields] *)

Module ProviderFieldsFacts.
Import ListFieldsSelection ProviderFields.

Definition names (flds : QgsFields) : list str := map (fun p => name (fst p)) flds.

Lemma existsb_name_false :
  forall (flds : QgsFields) (f : QgsField),
    ~ In (name f) (names flds) ->
    existsb (fun p => list_eqb (name (fst p)) (name f)) flds = false.
Proof.
  intros flds f Hn; apply not_true_iff_false; intros He.
  apply existsb_exists in He as [p [Hp He]]; apply list_eqb_eq in He.
  apply Hn; unfold names; rewrite <- He; apply (in_map (fun p => name (fst p))); exact Hp.
Qed.

(** Folding [provider_fields]' loop body over [rest], starting from [acc],
    when no name of [rest] is in [acc] and the names of [rest] are
    distinct: the provider fields of [rest] are appended in order. *)
Lemma provider_fold_spec :
  forall (rest acc : QgsFields),
    NoDup (names rest) ->
    (forall p, In p rest -> ~ In (name (fst p)) (names acc)) ->
    fold_left (fun flds p => if is_provider (snd p) then append flds (fst p) else flds)
      rest acc
    = acc ++ map (fun p => (fst p, OriginProvider)) (filter (fun p => is_provider (snd p)) rest).
Proof.
  induction rest as [|p rest IH]; intros acc Hnd Hout; simpl.
  - rewrite app_nil_r; reflexivity.
  - inversion Hnd as [|? ? Hp Hnd']; subst.
    destruct (is_provider (snd p)) eqn:Hprov.
    + unfold append; rewrite existsb_name_false by (apply Hout; left; reflexivity).
      rewrite IH; [simpl; rewrite <- app_assoc; reflexivity | exact Hnd' |].
      intros q Hq; unfold names; rewrite map_app, in_app_iff; simpl.
      intros [Hin | [Heq | []]].
      * exact (Hout q (or_intror Hq) Hin).
      * apply Hp; rewrite Heq; apply (in_map (fun p => name (fst p))); exact Hq.
    + apply IH; [exact Hnd' | intros q Hq; apply Hout; right; exact Hq].
Qed.

Lemma provider_fold_nodup :
  forall (rest acc : QgsFields),
    NoDup (names acc) ->
    Forall (fun p => snd p = OriginProvider) acc ->
    let r := fold_left (fun flds p => if is_provider (snd p) then append flds (fst p) else flds)
               rest acc in
    NoDup (names r) /\ Forall (fun p => snd p = OriginProvider) r.
Proof.
  induction rest as [|p rest IH]; intros acc Hnd Hall; simpl; [split; assumption|].
  destruct (is_provider (snd p)); [|apply IH; assumption].
  unfold append.
  destruct (existsb (fun q => list_eqb (name (fst q)) (name (fst p))) acc) eqn:He;
    [apply IH; assumption|].
  apply IH.
  - unfold names; rewrite map_app; simpl.
    apply NoDup_app; [exact Hnd | constructor; [intros []|constructor] |].
    intros x Hx [Hy|[]]; simpl in Hy; subst x.
    apply in_map_iff in Hx as [q [Hq Hin]].
    assert (Htrue : existsb (fun q => list_eqb (name (fst q)) (name (fst p))) acc = true).
    { apply existsb_exists; exists q; split; [exact Hin|]; apply list_eqb_eq; exact Hq. }
    congruence.
  - apply Forall_app; split; [exact Hall | repeat constructor].
Qed.

(** For a [QgsFields] (whose names are distinct), [provider_fields] keeps
    exactly the fields of provider origin, in their order, each with the
    origin [OriginProvider]. *)
Theorem provider_fields_keeps_provider_fields :
  forall fields : QgsFields,
    NoDup (names fields) ->
    provider_fields fields
    = map (fun p => (fst p, OriginProvider)) (filter (fun p => is_provider (snd p)) fields).
Proof.
  intros fields Hnd; unfold provider_fields.
  rewrite provider_fold_spec; [reflexivity | exact Hnd | intros p _ []].
Qed.

Definition sample_fields : QgsFields :=
  [({| name := lit "id"; alias := [] |}, OriginProvider);
   ({| name := lit "joined"; alias := [] |}, OriginJoin);
   ({| name := lit "area"; alias := [] |}, OriginExpression);
   ({| name := lit "nm"; alias := [] |}, OriginProvider)].

Lemma provider_fields_keeps_provider_fields_witness :
  provider_fields sample_fields
  = [({| name := lit "id"; alias := [] |}, OriginProvider);
     ({| name := lit "nm"; alias := [] |}, OriginProvider)].
Proof.
  refine (provider_fields_keeps_provider_fields sample_fields _).
  unfold names; simpl; repeat constructor; simpl; intuition discriminate.
Defined.

(** Whatever its input, [provider_fields] returns fields of provider origin
    with distinct names, and applying it again changes nothing. *)
Theorem provider_fields_idempotent :
  forall fields : QgsFields,
    let r := provider_fields fields in
    NoDup (names r) /\ Forall (fun p => snd p = OriginProvider) r /\
    provider_fields r = r.
Proof.
  intros fields r.
  destruct (provider_fold_nodup fields [] (NoDup_nil _) (Forall_nil _)) as [Hnd Hall].
  change (NoDup (names r)) in Hnd; change (Forall (fun p => snd p = OriginProvider) r) in Hall.
  split; [exact Hnd|]; split; [exact Hall|].
  rewrite provider_fields_keeps_provider_fields by exact Hnd.
  clear Hnd; induction Hall as [|[f o] r' Ho _ IH]; simpl in *; [reflexivity|].
  subst o; simpl; rewrite IH; reflexivity.
Qed.

End ProviderFieldsFacts.

(** ** tools/algorithm_processing.py: [flags] *)

Module AlgorithmProcessingFacts.
Import AlgorithmProcessing.

(** [flags()] sets bit 2 ([FlagHideFromModeler]) and keeps every other bit
    of [super().flags()]; so the flag is set once, whatever the parent
    returns. *)
Theorem flags_bits :
  forall super_flags n : Z,
    Z.testbit (flags super_flags) n = Z.testbit super_flags n || (n =? 2).
Proof.
  intros s n; unfold flags, FlagHideFromModeler; rewrite Z.lor_spec.
  change (Z.shiftl 1 2) with (2 ^ 2).
  destruct (Z.ltb_spec n 0) as [Hn|Hn].
  - rewrite !Z.testbit_neg_r by lia.
    destruct (Z.eqb_spec n 2); [lia | reflexivity].
  - rewrite Z.pow2_bits_eqb by lia; rewrite (Z.eqb_sym 2 n); reflexivity.
Qed.

End AlgorithmProcessingFacts.

(** ** widgets/selectable_combobox.py *)

Module SelectableComboBoxFacts.
Import ListFieldsSelection SelectableComboBox.

Definition unchanged (choose : QStandardItem -> bool) (it : QStandardItem) : bool :=
  Bool.eqb (si_checked it) (choose it).

Lemma with_checked_same :
  forall it b, si_checked it = b -> with_checked it b = it.
Proof. intros [] b H; simpl in H; subst; reflexivity. Qed.

Lemma set_checks_model :
  forall choose rest pre text,
    model (set_checks choose pre rest text)
    = pre ++ map (fun it => with_checked it (choose it)) rest.
Proof.
  induction rest as [|it rest IH]; intros pre text; simpl.
  - rewrite app_nil_r; reflexivity.
  - destruct (Bool.eqb (si_checked it) (choose it)) eqn:Hu.
    + rewrite IH, with_checked_same by (apply Bool.eqb_prop; exact Hu).
      rewrite <- app_assoc; reflexivity.
    + rewrite IH, <- app_assoc; reflexivity.
Qed.

Lemma map_unchanged :
  forall choose rest,
    forallb (unchanged choose) rest = true ->
    map (fun it => with_checked it (choose it)) rest = rest.
Proof.
  intros choose rest H; induction rest as [|it rest IH]; simpl in *; [reflexivity|].
  apply andb_prop in H as [H1 H2].
  rewrite with_checked_same by (apply Bool.eqb_prop; exact H1); rewrite IH by exact H2.
  reflexivity.
Qed.

(** The line-edit text after the loop: unchanged if no check state
    changed, otherwise the label of the final model. *)
Lemma set_checks_text :
  forall choose rest pre text,
    edit_text (set_checks choose pre rest text)
    = if forallb (unchanged choose) rest then text
      else label_of (model (set_checks choose pre rest text)).
Proof.
  induction rest as [|it rest IH]; intros pre text; simpl; [reflexivity|].
  unfold unchanged at 1.
  destruct (Bool.eqb (si_checked it) (choose it)) eqn:Hu; simpl.
  - apply IH.
  - rewrite IH; destruct (forallb (unchanged choose) rest) eqn:Hr; [|reflexivity].
    rewrite set_checks_model, map_unchanged by exact Hr.
    rewrite <- app_assoc; reflexivity.
Qed.

Lemma selected_of_checks :
  forall (contains : str -> bool) rest,
    selected_of (map (fun it => with_checked it (contains (si_data it))) rest)
    = filter contains (map si_data rest).
Proof.
  intros contains rest; unfold selected_of.
  induction rest as [|it rest IH]; simpl; [reflexivity|].
  destruct (contains (si_data it)); simpl; rewrite IH; reflexivity.
Qed.

Definition item_view (it : QStandardItem) :=
  (si_text it, si_data it, si_icon it, si_enabled it, si_checkable it, si_selectable it).

(** After [set_selected_items(S)], [selected_items()] is the data of the
    model's items that are members of [S], in model order, and no item
    changed anything but its check state. *)
Theorem set_selected_items_then_selected_items :
  forall (c : CheckableComboBox) (contains : str -> bool),
    selected_items (set_selected_items c contains) = filter contains (map si_data (model c)) /\
    map item_view (model (set_selected_items c contains)) = map item_view (model c).
Proof.
  intros c contains; unfold selected_items, set_selected_items.
  rewrite set_checks_model; simpl; split; [apply selected_of_checks|].
  rewrite map_map; apply map_ext; intros []; reflexivity.
Qed.

(** [select_all_clicked] checks every item: [selected_items()] is then the
    data of all items, in model order. *)
Theorem select_all_clicked_selects_all :
  forall c : CheckableComboBox,
    selected_items (select_all_clicked c) = map si_data (model c).
Proof.
  intros c; unfold selected_items, select_all_clicked; rewrite set_checks_model; simpl.
  unfold selected_of; induction (model c) as [|it rest IH]; simpl; [reflexivity|].
  rewrite IH; reflexivity.
Qed.

(** When the line edit shows the label of the selection, it still does
    after [set_selected_items] and after [select_all_clicked]: the
    [itemChanged] signal keeps the preview in step with the check states. *)
Theorem preview_follows_selection :
  forall c : CheckableComboBox,
    edit_text c = label_of (model c) ->
    (forall contains : str -> bool,
       edit_text (set_selected_items c contains)
       = label_of (model (set_selected_items c contains))) /\
    edit_text (select_all_clicked c) = label_of (model (select_all_clicked c)).
Proof.
  intros c Hc.
  assert (Hgen : forall choose,
             edit_text (set_checks choose [] (model c) (edit_text c))
             = label_of (model (set_checks choose [] (model c) (edit_text c)))).
  { intros choose; rewrite set_checks_text.
    destruct (forallb (unchanged choose) (model c)) eqn:Hr; [|reflexivity].
    rewrite set_checks_model, map_unchanged by exact Hr; exact Hc. }
  split; [intros contains; apply Hgen | apply Hgen].
Qed.

Definition plain_item (d : str) (checked : bool) : QStandardItem :=
  {| si_text := d; si_data := d; si_icon := None; si_enabled := true;
     si_checkable := true; si_selectable := false; si_checked := checked |}.

Definition sample_combo : CheckableComboBox :=
  {| model := [plain_item (lit "a") true; plain_item (lit "b") false;
               plain_item (lit "c") true];
     edit_text := lit "a, c" |}.

Lemma preview_follows_selection_witness :
  edit_text (set_selected_items sample_combo (fun d => list_eqb d (lit "b")))
  = label_of (model (set_selected_items sample_combo (fun d => list_eqb d (lit "b")))).
Proof.
  exact (proj1 (preview_follows_selection sample_combo ltac:(vm_compute; reflexivity))
           (fun d => list_eqb d (lit "b"))).
Defined.

(** [CheckableFieldComboBox.set_layer] on a vector layer stores the layer
    and builds one row per field, in field order, with the field name as
    data and the icon of its position; every row is checkable, not
    selectable and unchecked, so nothing is selected. *)
Theorem set_layer_vector_rows :
  forall (current : option QgsMapLayer) (l : QgsMapLayer),
    is_vector_layer l = true ->
    let r := set_layer current (Some l) in
    fst r = Some l /\
    map si_data (snd r) = map name (ml_fields l) /\
    selected_of (snd r) = [] /\
    forall (i : nat) (f : QgsField),
      nth_error (ml_fields l) i = Some f ->
      exists it, nth_error (snd r) i = Some it /\
                 si_icon it = Some (ml_iconForField l (Z.of_nat i)) /\
                 si_checkable it = true /\ si_selectable it = false /\
                 si_checked it = false.
Proof.
  intros current l Hv r; unfold r, set_layer; rewrite Hv; simpl.
  assert (Hgen : forall fs k,
    map si_data (rows_from (Z.of_nat k) l fs) = map name fs /\
    selected_of (rows_from (Z.of_nat k) l fs) = [] /\
    forall (i : nat) (f : QgsField), nth_error fs i = Some f ->
      exists it, nth_error (rows_from (Z.of_nat k) l fs) i = Some it /\
                 si_icon it = Some (ml_iconForField l (Z.of_nat (k + i))) /\
                 si_checkable it = true /\ si_selectable it = false /\
                 si_checked it = false).
  { induction fs as [|g fs IH]; intros k; simpl.
    - split; [reflexivity|]; split; [reflexivity|]; intros [|i] f H; discriminate.
    - replace (Z.of_nat k + 1) with (Z.of_nat (S k)) by lia.
      destruct (IH (S k)) as [H1 [H2 H3]].
      split; [rewrite H1; reflexivity|]; split; [exact H2|].
      intros [|i] f Hf; simpl in Hf.
      + eexists; split; [reflexivity|]; simpl.
        rewrite Nat.add_0_r; repeat split.
      + destruct (H3 i f Hf) as [it Hit]; exists it.
        rewrite Nat.add_succ_r, <- Nat.add_succ_l; exact Hit. }
  destruct (Hgen (ml_fields l) O) as [H1 [H2 H3]].
  split; [reflexivity|]; split; [exact H1|]; split; [exact H2|].
  exact H3.
Qed.

Definition sample_map_layer (vector : bool) : QgsMapLayer :=
  {| is_vector_layer := vector;
     ml_fields := [{| name := lit "id"; alias := [] |};
                   {| name := lit "nm"; alias := lit "Name" |}];
     ml_iconForField := fun i => 200 + i |}.

Lemma set_layer_vector_rows_witness :
  map si_data (snd (set_layer None (Some (sample_map_layer true))))
  = [lit "id"; lit "nm"].
Proof.
  exact (proj1 (proj2 (set_layer_vector_rows None (sample_map_layer true) eq_refl))).
Defined.

(** Given no layer or a layer that is not a vector layer, [set_layer]
    keeps the previously stored layer and leaves the model empty. *)
Theorem set_layer_non_vector_clears :
  forall (current layer : option QgsMapLayer),
    (forall l, layer = Some l -> is_vector_layer l = false) ->
    set_layer current layer = (current, []).
Proof.
  intros current [l|] Hl; simpl; [|reflexivity].
  rewrite (Hl l eq_refl); reflexivity.
Qed.

Lemma set_layer_non_vector_clears_witness :
  set_layer (Some (sample_map_layer true)) (Some (sample_map_layer false))
  = (Some (sample_map_layer true), []).
Proof.
  apply set_layer_non_vector_clears.
  intros l Hl; injection Hl as <-; reflexivity.
Defined.

End SelectableComboBoxFacts.

(** ** tools/logger_processing.py: the log *)

Module LoggerLevelsFacts.
Import LoggerProcessing LoggerLevels.

(** Every reporting method appends exactly one record to [LOGGER] when
    [use_logger] is on (at [warning] for debug info, [exception] for
    errors, [info] otherwise) and none when it is off; [use_logger] itself
    never changes. *)
Theorem call_logs_at_level :
  forall (s : LoggerProcessingFeedBack) (c : category) (t : str),
    logged (call c s t)
    = logged s ++ (if use_logger s then [(level_of c, t)] else []) /\
    use_logger (call c s t) = use_logger s.
Proof.
  intros s c t; split; [|destruct c; reflexivity].
  destruct c; simpl; unfold log_if; destruct (use_logger s);
    rewrite ?app_nil_r; reflexivity.
Qed.

End LoggerLevelsFacts.

(** ** tools/decorations.py: the dropped [False] argument *)

Module DecorationsMoreFacts.
Import Decorations.

(** A call with exactly two arguments whose second equals [False]
    ([False] or [0]) behaves as the call with the first argument alone:
    the wrapper drops that argument before calling [fn]. *)
Theorem log_if_fails_drops_False :
  forall (fn : list pyarg -> call_outcome) (a f : pyarg),
    eq_False f = true ->
    log_if_fails fn [a; f] = log_if_fails fn [a].
Proof.
  intros fn a f Hf; unfold log_if_fails; simpl; rewrite Hf; reflexivity.
Qed.

(** With any other argument list, [fn] receives the arguments unchanged. *)
Theorem log_if_fails_passes_other_args :
  forall (fn : list pyarg -> call_outcome) (args : list pyarg),
    tail_is_not_False args = true ->
    log_if_fails fn args
    = match fn args with
      | Returns => (Returns, [])
      | Raises (QgsPluginException bar_msg as e) =>
          (Returns, [MsgBarPluginException e bar_msg])
      | Raises (OtherException _ as e) =>
          (Returns, [MsgBarUnhandled (lit "Unhandled exception occurred") e])
      | Raises (BaseOnlyException _ as e) => (Raises e, [])
      end.
Proof.
  intros fn args H; unfold log_if_fails; rewrite H; reflexivity.
Qed.

Definition only_one_arg (args : list pyarg) : call_outcome :=
  match args with
  | [_] => Returns
  | _ => Raises (OtherException (lit "TypeError"))
  end.

Lemma log_if_fails_drops_False_witness :
  log_if_fails only_one_arg [PyObject 1; PyInt 0] = (Returns, []).
Proof.
  rewrite (log_if_fails_drops_False only_one_arg (PyObject 1) (PyInt 0) eq_refl).
  reflexivity.
Defined.

Lemma log_if_fails_passes_other_args_witness :
  log_if_fails only_one_arg [PyObject 1; PyBool true]
  = (Returns, [MsgBarUnhandled (lit "Unhandled exception occurred")
                 (OtherException (lit "TypeError"))]).
Proof.
  rewrite (log_if_fails_passes_other_args only_one_arg [PyObject 1; PyBool true] eq_refl).
  reflexivity.
Defined.

End DecorationsMoreFacts.

(** ** tools/layers.py: the caller's scope list *)

Module ExpressionMoreFacts.
Import Expressions.

(** [evaluate_expressions] appends the layer's scope to the caller's
    [context_scopes] list in place: reusing one list for two calls with
    the same layer leaves the scope in it twice, and the second
    evaluation sees both copies. *)
Theorem evaluate_expressions_shared_scopes :
  forall (Scope Feature Layer Value : Type) (layerScope : Layer -> Scope)
         (layer_truthy : Layer -> bool) (feature_truthy : Feature -> bool)
         (exp1 exp2 : QgsExpression (Scope:=Scope) (Feature:=Feature) (Value:=Value))
         (feature : option Feature) (l : Layer) (scopes : list Scope),
    layer_truthy l = true ->
    let ev := evaluate_expressions layerScope layer_truthy feature_truthy in
    fst (ev exp2 feature (Some l) (fst (ev exp1 feature (Some l) (Some scopes))))
    = Some (scopes ++ [layerScope l; layerScope l]).
Proof.
  intros Scope Feature Layer Value layerScope layer_truthy feature_truthy
    exp1 exp2 feature l scopes Hl ev; unfold ev, evaluate_expressions.
  rewrite Hl.
  destruct (evaluate exp1 _) as [v1 e1]; simpl.
  destruct (evaluate exp2 _) as [v2 e2]; simpl.
  rewrite <- app_assoc; reflexivity.
Qed.

Definition const_expression : QgsExpression (Scope:=Z) (Feature:=Z) (Value:=Z) :=
  {| hasParserError := false; parserErrorString := [];
     evaluate := fun ctx => (Z.of_nat (length (ctx_scopes ctx)), None) |}.

Lemma evaluate_expressions_shared_scopes_witness :
  fst (evaluate_expressions (fun l => l) (fun _ => true) (fun _ => true)
         const_expression None (Some 7)
         (fst (evaluate_expressions (fun l => l) (fun _ => true) (fun _ => true)
                 const_expression None (Some 7) (Some [1]))))
  = Some [1; 7; 7].
Proof.
  exact (evaluate_expressions_shared_scopes Z Z Z Z (fun l => l) (fun _ => true)
           (fun _ => true) const_expression const_expression None 7 [1] eq_refl).
Defined.

End ExpressionMoreFacts.

(** ** tools/network.py: the request before the reply *)

Module NetworkCallFacts.
Import Network.

(** Every query parameter reaches the URL, the first one included. *)
Lemma request_call_keeps_all_params :
  request_call (sample_env PLAIN_REPLY (cd_response [])) SAMPLE_URL Get ENCODING []
    (Some [(lit "a", lit "1"); (lit "b", lit "2")]) None None
  = Ok (CallGet None
          {| rq_url := SAMPLE_URL ++ lit "?a=1&b=2";
             rq_raw_headers := [(lit "User-Agent",
                                 lit "Mozilla/5.0 QGIS/33400 plugin")] |}).
Proof. vm_compute; reflexivity. Qed.

(** A post with a single file whose name cannot be encoded (a lone
    surrogate) raises before any request is made: the first file of the
    multipart body is encoded like the others. *)
Lemma request_call_single_file_encoding_error :
  request_call (sample_env PLAIN_REPLY (cd_response [])) SAMPLE_URL Post ENCODING []
    None None
    (Some [{| field_name := lit "file";
              file_info := {| file_name := [55296]; file_content := lit "x";
                              content_type := lit "text/plain" |} |}])
  = Raise UnicodeError.
Proof. vm_compute; reflexivity. Qed.

End NetworkCallFacts.
